(** * Render-mode resolution of the sign-in page

    A shallow embedding of [getRenderOptions] from
    [src/pages/signin/SignInPage.js], together with the properties of the
    decision table it implements.

    The [account] prop is a plain JavaScript object, modelled as a finite map
    from property names to JavaScript values; reading an absent property
    yields [undefined].  The two ambient reads of the function (the platform
    detector and the SAML beta check) go through a small state monad over the
    environment, in the order the source makes them. *)

From stdpp Require Import gmap strings.

Local Open Scope string_scope.
Local Open Scope nat_scope.

(** ** JavaScript values *)

Module JS.

(** The values an [account] property can hold according to the component's
    [propTypes]: booleans, strings, an object of error strings, and the two
    empty values every Onyx record may carry. *)
Inductive value : Type :=
| VUndefined
| VNull
| VBool (b : bool)
| VString (s : string)
| VObject (o : gmap string string).

(** [Boolean(v)]: the ToBoolean coercion. *)
Definition Boolean (v : value) : bool :=
  match v with
  | VUndefined => false
  | VNull => false
  | VBool b => b
  | VString s => negb (String.eqb s "")
  | VObject _ => true
  end.

(** [v === s] for a string constant [s]: only a string with the same
    characters is strictly equal to it. *)
Definition strictEqualsString (v : value) (s : string) : bool :=
  match v with
  | VString t => String.eqb t s
  | _ => false
  end.

(** [o.k]: an absent own property reads as [undefined]. *)
Definition getProp (o : gmap string value) (k : string) : value :=
  default VUndefined (o !! k).

End JS.

Export JS.

(** ** The part of underscore the function uses *)

Module Underscore.

(** [_.keys(o)] of a plain object. *)
Definition keys (o : gmap string value) : list string :=
  (map_to_list o).*1.

(** [_.isEmpty(o)] of a plain object: it has no own enumerable key. *)
Definition isEmpty (o : gmap string value) : bool :=
  Nat.eqb (length (keys o)) 0.

End Underscore.

(** ** Ambient environment *)

(** What the function reads from outside its argument. *)
Record World : Type := mkWorld {
  world_platform : string;
  world_canUseSAML : bool;
}.

(** Computations that may read or change the environment. *)
Definition M (A : Type) : Type := World -> A * World.

#[global] Instance M_ret : MRet M := fun A (a : A) w => (a, w).

#[global] Instance M_bind : MBind M :=
  fun A B (k : A -> M B) (m : M A) w => let '(a, w') := m w in k a w'.

(** Modelled from the spec: the platform detector [libs/getPlatform], which is
    not part of the sources at hand; [getPlatform()] returns the name of the
    platform the client runs on. *)
Definition getPlatform : M string := fun w => (world_platform w, w).

Module Permissions.

(** Modelled from the spec: the feature-flag check of [libs/Permissions],
    which is not part of the sources at hand; [canUseSAML()] returns a
    boolean. *)
Definition canUseSAML : M bool := fun w => (world_canUseSAML w, w).

End Permissions.

(** The constants of [CONST.js] the function compares against. *)
Record Consts : Type := mkConsts {
  FORMS_LOGIN_FORM : string;
  PLATFORM_WEB : string;
  PLATFORM_DESKTOP : string;
}.

(** ** Argument and result of [getRenderOptions] *)

(** The destructured argument.  All fields but [account] are booleans at the
    only call site ([Boolean(...)], a negation or comparison, a [useState]
    flag, the leadership check). *)
Record Input : Type := mkInput {
  hasLogin : bool;
  hasValidateCode : bool;
  account : gmap string value;
  isPrimaryLogin : bool;
  isUsingMagicCode : bool;
  isClientTheLeader : bool;
}.

Record RenderOptions : Type := mkRenderOptions {
  shouldShowLoginForm : bool;
  shouldShowEmailDeliveryFailurePage : bool;
  shouldShowUnlinkLoginForm : bool;
  shouldShowValidateCodeForm : bool;
  shouldShowChooseSSOOrMagicCode : bool;
  shouldInitiateSAMLLogin : bool;
  shouldShowWelcomeHeader : bool;
  shouldShowWelcomeText : bool;
}.

Section SignInPage.

Variable CONST : Consts.

Definition getRenderOptions (i : Input) : M RenderOptions :=
  let hasAccount := negb (Underscore.isEmpty (account i)) in
  let isSAMLEnabled := Boolean (getProp (account i) "isSAMLEnabled") in
  let isSAMLRequired := Boolean (getProp (account i) "isSAMLRequired") in
  let hasEmailDeliveryFailure := Boolean (getProp (account i) "hasEmailDeliveryFailure") in
  platform ← getPlatform;
  canUseSAML ← Permissions.canUseSAML;
  let '(shouldInitiateSAMLLogin, shouldShowChooseSSOOrMagicCode) :=
    if canUseSAML || String.eqb platform (PLATFORM_WEB CONST)
       || String.eqb platform (PLATFORM_DESKTOP CONST)
    then
      (hasAccount && hasLogin i && isSAMLRequired
       && strictEqualsString (getProp (account i) "loadingForm") (FORMS_LOGIN_FORM CONST),
       hasAccount && hasLogin i && isSAMLEnabled && negb isSAMLRequired
       && negb (isUsingMagicCode i))
    else (false, false) in
  let shouldShowLoginForm :=
    if isSAMLRequired && negb shouldInitiateSAMLLogin
    then isClientTheLeader i
    else isClientTheLeader i && negb (hasLogin i) && negb (hasValidateCode i) in
  let shouldShowEmailDeliveryFailurePage :=
    hasLogin i && hasEmailDeliveryFailure && negb shouldShowChooseSSOOrMagicCode
    && negb shouldInitiateSAMLLogin in
  let isUnvalidatedSecondaryLogin :=
    hasLogin i && negb (isPrimaryLogin i)
    && negb (Boolean (getProp (account i) "validated"))
    && negb hasEmailDeliveryFailure in
  let shouldShowValidateCodeForm :=
    hasAccount && (hasLogin i || hasValidateCode i) && negb isUnvalidatedSecondaryLogin
    && negb hasEmailDeliveryFailure && negb shouldShowChooseSSOOrMagicCode
    && negb isSAMLRequired in
  let shouldShowWelcomeHeader :=
    shouldShowLoginForm || shouldShowValidateCodeForm || shouldShowChooseSSOOrMagicCode
    || isUnvalidatedSecondaryLogin in
  let shouldShowWelcomeText :=
    shouldShowLoginForm || shouldShowValidateCodeForm || shouldShowChooseSSOOrMagicCode
    || negb (isClientTheLeader i) in
  mret {| shouldShowLoginForm := shouldShowLoginForm;
         shouldShowEmailDeliveryFailurePage := shouldShowEmailDeliveryFailurePage;
         shouldShowUnlinkLoginForm := isUnvalidatedSecondaryLogin;
         shouldShowValidateCodeForm := shouldShowValidateCodeForm;
         shouldShowChooseSSOOrMagicCode := shouldShowChooseSSOOrMagicCode;
         shouldInitiateSAMLLogin := shouldInitiateSAMLLogin;
         shouldShowWelcomeHeader := shouldShowWelcomeHeader;
         shouldShowWelcomeText := shouldShowWelcomeText |}.

(** The options returned when the function runs in environment [w]. *)
Definition renderOptions (w : World) (i : Input) : RenderOptions :=
  (getRenderOptions i w).1.

End SignInPage.

(** ** The claims of the specification, in its own words *)

(** The five flags that select a form, in the order the page renders them. *)
Definition formFlags (r : RenderOptions) : list bool :=
  [ shouldShowLoginForm r;
    shouldShowValidateCodeForm r;
    shouldShowUnlinkLoginForm r;
    shouldShowChooseSSOOrMagicCode r;
    shouldShowEmailDeliveryFailurePage r ].

(** How many of the five form flags are set. *)
Definition activeForms (r : RenderOptions) : nat :=
  sum_list (Nat.b2n <$> formFlags r).

(** The exclusivity invariant as the specification words it: at most one form
    flag is set, unless the two set flags are the unlink form and the
    delivery-failure page. *)
Definition specExclusive (r : RenderOptions) : Prop :=
  activeForms r ≤ 1
  ∨ (activeForms r = 2
     ∧ shouldShowUnlinkLoginForm r = true
     ∧ shouldShowEmailDeliveryFailurePage r = true).

(** The platform gate of the SAML flows. *)
Definition samlPermitted (CONST : Consts) (w : World) : Prop :=
  world_canUseSAML w = true
  ∨ world_platform w = PLATFORM_WEB CONST
  ∨ world_platform w = PLATFORM_DESKTOP CONST.

(** The same gate as the condition of the [if] computes it. *)
Definition samlPermittedb (CONST : Consts) (w : World) : bool :=
  world_canUseSAML w
  || String.eqb (world_platform w) (PLATFORM_WEB CONST)
  || String.eqb (world_platform w) (PLATFORM_DESKTOP CONST).

(** [isUnvalidatedSecondaryLogin] as the specification defines it. *)
Definition specUnvalidatedSecondaryLogin (i : Input) : Prop :=
  hasLogin i = true
  ∧ isPrimaryLogin i = false
  ∧ Boolean (getProp (account i) "validated") = false
  ∧ Boolean (getProp (account i) "hasEmailDeliveryFailure") = false.

(** ** Concrete environments and inputs *)

Module Sample.

(** The values [CONST.js] gives the three constants in the application. *)
Definition CONST : Consts :=
  {| FORMS_LOGIN_FORM := "LoginForm";
     PLATFORM_WEB := "web";
     PLATFORM_DESKTOP := "desktop" |}.

Definition web : World := {| world_platform := "web"; world_canUseSAML := false |}.

Definition ios : World := {| world_platform := "ios"; world_canUseSAML := false |}.

(** A SAML-only account whose sign-in form is not being submitted and whose
    e-mails bounce. *)
Definition samlRequiredBouncing : gmap string value :=
  <["isSAMLRequired" := VBool true]>
    (<["hasEmailDeliveryFailure" := VBool true]>
       (<["validated" := VBool true]> ∅)).

(** A SAML-only account whose login form is being submitted and whose
    e-mails bounce. *)
Definition samlRequiredLoading : gmap string value :=
  <["loadingForm" := VString "LoginForm"]> samlRequiredBouncing.

(** An unvalidated SAML-only account. *)
Definition samlRequiredUnvalidated : gmap string value :=
  <["isSAMLRequired" := VBool true]> (<["validated" := VBool false]> ∅).

(** An unvalidated account on which SAML is offered but optional. *)
Definition samlOptionalUnvalidated : gmap string value :=
  <["isSAMLEnabled" := VBool true]> (<["validated" := VBool false]> ∅).

(** A validated account without SAML. *)
Definition plainValidated : gmap string value :=
  <["validated" := VBool true]> ∅.

(** A validated account without SAML whose e-mails bounce. *)
Definition bouncing : gmap string value :=
  <["hasEmailDeliveryFailure" := VBool true]> plainValidated.

(** A login was typed; everything else is at its default. *)
Definition withLogin (a : gmap string value) (primary : bool) : Input :=
  {| hasLogin := true;
     hasValidateCode := false;
     account := a;
     isPrimaryLogin := primary;
     isUsingMagicCode := false;
     isClientTheLeader := true |}.

(** The page as first opened: no credentials, default-prop account. *)
Definition fresh : Input :=
  {| hasLogin := false;
     hasValidateCode := false;
     account := ∅;
     isPrimaryLogin := true;
     isUsingMagicCode := false;
     isClientTheLeader := true |}.

End Sample.

(** ** The component [SignInPage]

    The component derives the argument of [getRenderOptions] from its props
    and hook state, requests the SAML navigation, picks the welcome copy and
    returns the layout with the forms to mount.  Of the returned element tree
    the model keeps the data props; styles, refs and callbacks are left out. *)

(** Record updates of the argument of [getRenderOptions]. *)
Definition withAccount (i : Input) (a : gmap string value) : Input :=
  {| hasLogin := hasLogin i;
     hasValidateCode := hasValidateCode i;
     account := a;
     isPrimaryLogin := isPrimaryLogin i;
     isUsingMagicCode := isUsingMagicCode i;
     isClientTheLeader := isClientTheLeader i |}.

Definition withMagicCode (i : Input) (b : bool) : Input :=
  {| hasLogin := hasLogin i;
     hasValidateCode := hasValidateCode i;
     account := account i;
     isPrimaryLogin := isPrimaryLogin i;
     isUsingMagicCode := b;
     isClientTheLeader := isClientTheLeader i |}.

(** The account properties [getRenderOptions] reads. *)
Definition readKeys : list string :=
  [ "isSAMLEnabled"; "isSAMLRequired"; "hasEmailDeliveryFailure"; "loadingForm";
    "validated" ].

(** The [credentials] prop: each field is a string or absent. *)
Record Credentials : Type := mkCredentials {
  login : option string;
  twoFactorAuthCode : option string;
  validateCode : option string;
}.

(** An optional string as a JavaScript value: absent reads as [undefined]. *)
Definition optionalString (o : option string) : value :=
  match o with
  | Some s => VString s
  | None => VUndefined
  end.

(** [v === o] for a string-or-absent [o]. *)
Definition strictEqualsOptional (v : value) (o : option string) : bool :=
  match o with
  | Some s => strictEqualsString v s
  | None => match v with VUndefined => true | _ => false end
  end.

(** [v === b] for a boolean constant [b]. *)
Definition strictEqualsBool (v : value) (b : bool) : bool :=
  match v with
  | VBool c => Bool.eqb c b
  | _ => false
  end.

(** [o || ''] for a string-or-absent [o]. *)
Definition orEmptyString (o : option string) : string :=
  if Boolean (optionalString o) then default "" o else "".

(** The replacement character of [.replace(/ /g, ' ')]: U+00A0 in the
    UTF-8 bytes a [string] holds. *)
Definition hardSpace : string :=
  String (Ascii.ascii_of_nat 194) (String (Ascii.ascii_of_nat 160) EmptyString).

(** [s.replace(/ /g, r)] for a replacement [r] without [$] patterns. *)
Fixpoint replaceSpaces (r : string) (s : string) : string :=
  match s with
  | EmptyString => EmptyString
  | String c s' =>
      if Ascii.eqb c Ascii.Space
      then String.append r (replaceSpaces r s')
      else String c (replaceSpaces r s')
  end.

Record Props : Type := mkProps {
  props_account : gmap string value;
  props_credentials : Credentials;
  props_isInModal : bool;
  props_activeClients : list string;
}.

(** The two [useState] cells of the component, as a render finds them. *)
Record HookState : Type := mkHookState {
  state_isUsingRecoveryCode : bool;
  state_isUsingMagicCode : bool;
}.

(** What a render reads and writes outside its props and state. *)
Record PageWorld : Type := mkPageWorld {
  page_env : World;
  page_isClientTheLeader : bool;
  page_isSmallScreenWidth : bool;
  page_warnings : list string;
  page_navigations : list string;
}.

Definition P (A : Type) : Type := PageWorld -> A * PageWorld.

#[global] Instance P_ret : MRet P := fun A (a : A) pw => (a, pw).

#[global] Instance P_bind : MBind P :=
  fun A B (k : A -> P B) (m : P A) pw => let '(a, pw') := m pw in k a pw'.

(** Run a computation over the environment inside a render. *)
Definition liftEnv {A : Type} (m : M A) : P A :=
  fun pw =>
    let '(a, w') := m (page_env pw) in
    (a, {| page_env := w';
           page_isClientTheLeader := page_isClientTheLeader pw;
           page_isSmallScreenWidth := page_isSmallScreenWidth pw;
           page_warnings := page_warnings pw;
           page_navigations := page_navigations pw |}).

(** Modelled from the spec: the hook [hooks/useWindowDimensions], which is not
    part of the sources at hand; the component reads [isSmallScreenWidth]. *)
Definition useWindowDimensions : P bool :=
  fun pw => (page_isSmallScreenWidth pw, pw).

Module ActiveClientManager.

(** Modelled from the spec: the leadership oracle of
    [libs/ActiveClientManager], which is not part of the sources at hand;
    [isClientTheLeader()] returns a boolean. *)
Definition isClientTheLeader : P bool :=
  fun pw => (page_isClientTheLeader pw, pw).

End ActiveClientManager.

Module Log.

(** Modelled from the spec: [Log.warn] of [libs/Log], which is not part of the
    sources at hand; the message is recorded and rendering goes on. *)
Definition warn (message : string) : P unit :=
  fun pw =>
    (tt, {| page_env := page_env pw;
            page_isClientTheLeader := page_isClientTheLeader pw;
            page_isSmallScreenWidth := page_isSmallScreenWidth pw;
            page_warnings := page_warnings pw ++ [message];
            page_navigations := page_navigations pw |}).

End Log.

Module Navigation.

(** Modelled from the spec: [Navigation.isNavigationReady().then(() =>
    Navigation.navigate(route))] of [libs/Navigation], which is not part of
    the sources at hand; the route is recorded as requested, to be followed
    once navigation is ready. *)
Definition navigateWhenReady (route : string) : P unit :=
  fun pw =>
    (tt, {| page_env := page_env pw;
            page_isClientTheLeader := page_isClientTheLeader pw;
            page_isSmallScreenWidth := page_isSmallScreenWidth pw;
            page_warnings := page_warnings pw;
            page_navigations := page_navigations pw ++ [route] |}).

End Navigation.

(** The forms the layout can hold, with their data props. *)
Inductive Element : Type :=
| LoginForm (isVisible : bool) (blurOnSubmit : bool)
| ValidateCodeForm (isUsingRecoveryCode : bool)
| UnlinkLoginForm
| ChooseSSOOrMagicCode
| EmailDeliveryFailurePage.

#[global] Instance Element_eq_dec : EqDecision Element.
Proof. solve_decision. Defined.

(** The returned [SignInPageLayout] element. *)
Record Layout : Type := mkLayout {
  welcomeHeader : string;
  welcomeText : string;
  layout_shouldShowWelcomeHeader : bool;
  layout_shouldShowWelcomeText : bool;
  layout_isInModal : bool;
  children : list Element;
}.

(** [{cond && <X />}]: a false child mounts nothing. *)
Definition mountIf (cond : bool) (e : Element) : list Element :=
  if cond then [e] else [].

Section Page.

Variable CONST : Consts.

(** [ROUTES.SAML_SIGN_IN]. *)
Variable ROUTES_SAML_SIGN_IN : string.

(** [translate] and [formatPhoneNumber] of [useLocalize]; a call without
    parameters passes [None]. *)
Variable translate : string -> option (gmap string string) -> string.
Variable formatPhoneNumber : string -> string.

(** [Str.removeSMSDomain] and [Str.isSMSLogin] of expensify-common. *)
Variable Str_removeSMSDomain : string -> string.
Variable Str_isSMSLogin : string -> bool.

(** The object literal passed to [getRenderOptions]. *)
Definition renderInput (props : Props) (st : HookState) (leader : bool) : Input :=
  let account := props_account props in
  let credentials := props_credentials props in
  {| hasLogin := Boolean (optionalString (login credentials));
     hasValidateCode := Boolean (optionalString (validateCode credentials));
     account := account;
     isPrimaryLogin :=
       negb (Boolean (getProp account "primaryLogin"))
       || strictEqualsOptional (getProp account "primaryLogin") (login credentials);
     isUsingMagicCode := state_isUsingMagicCode st;
     isClientTheLeader := leader |}.

(** The login as the magic-code messages display it. *)
Definition userLoginToDisplay (credentials : Credentials) : string :=
  let userLogin := Str_removeSMSDomain (orEmptyString (login credentials)) in
  if Str_isSMSLogin userLogin
  then replaceSpaces hardSpace (formatPhoneNumber userLogin)
  else userLogin.

Definition SignInPage (props : Props) (st : HookState) : P Layout :=
  let account := props_account props in
  let credentials := props_credentials props in
  let isInModal := props_isInModal props in
  isSmallScreenWidth ← useWindowDimensions;
  let shouldShowSmallScreen := isSmallScreenWidth || isInModal in
  let isUsingRecoveryCode := state_isUsingRecoveryCode st in
  (* [activeClients && ...]: an array is truthy, the call is always made *)
  isClientTheLeader ← ActiveClientManager.isClientTheLeader;
  options ← liftEnv (getRenderOptions CONST (renderInput props st isClientTheLeader));
  (if shouldInitiateSAMLLogin options
   then Navigation.navigateWhenReady ROUTES_SAML_SIGN_IN
   else mret tt);;
  let headerText := translate "login.hero.header" None in
  '(welcomeHeader, welcomeText) ←
    (if negb isClientTheLeader then
       mret (translate "welcomeText.anotherLoginPageIsOpen" None,
             translate "welcomeText.anotherLoginPageIsOpenExplanation" None)
     else if shouldShowLoginForm options then
       mret (if isSmallScreenWidth then headerText
             else translate "welcomeText.getStarted" None,
             if isSmallScreenWidth then translate "welcomeText.getStarted" None
             else "")
     else if shouldShowValidateCodeForm options then
       if Boolean (getProp account "requiresTwoFactorAuth") then
         mret (if isSmallScreenWidth then ""
               else translate "welcomeText.welcomeBack" None,
               if isUsingRecoveryCode
               then translate "validateCodeForm.enterRecoveryCode" None
               else translate "validateCodeForm.enterAuthenticatorCode" None)
       else
         let params := Some {[ "login" := userLoginToDisplay credentials ]} in
         if Boolean (getProp account "validated") then
           mret (if shouldShowSmallScreen then ""
                 else translate "welcomeText.welcomeBack" None,
                 if shouldShowSmallScreen
                 then String.append (translate "welcomeText.welcomeBack" None)
                        (String.append " "
                           (translate "welcomeText.welcomeEnterMagicCode" params))
                 else translate "welcomeText.welcomeEnterMagicCode" params)
         else
           mret (if shouldShowSmallScreen then ""
                 else translate "welcomeText.welcome" None,
                 if shouldShowSmallScreen
                 then String.append (translate "welcomeText.welcome" None)
                        (String.append " "
                           (translate "welcomeText.newFaceEnterMagicCode" params))
                 else translate "welcomeText.newFaceEnterMagicCode" params)
     else if shouldShowUnlinkLoginForm options
             || shouldShowEmailDeliveryFailurePage options
             || shouldShowChooseSSOOrMagicCode options then
       mret (if shouldShowSmallScreen then headerText
             else translate "welcomeText.welcomeBack" None,
             "")
     else if negb (shouldInitiateSAMLLogin options) then
       Log.warn "SignInPage in unexpected state!";;
       mret ("", "")
     else mret ("", "") : P (string * string));
  mret {| welcomeHeader := welcomeHeader;
          welcomeText := welcomeText;
          layout_shouldShowWelcomeHeader :=
            shouldShowWelcomeHeader options || negb isSmallScreenWidth || negb isInModal;
          layout_shouldShowWelcomeText := shouldShowWelcomeText options;
          layout_isInModal := isInModal;
          children :=
            LoginForm (shouldShowLoginForm options)
              (strictEqualsBool (getProp account "validated") false)
            :: mountIf (shouldShowValidateCodeForm options)
                 (ValidateCodeForm isUsingRecoveryCode)
            ++ mountIf (shouldShowUnlinkLoginForm options) UnlinkLoginForm
            ++ mountIf (shouldShowChooseSSOOrMagicCode options) ChooseSSOOrMagicCode
            ++ mountIf (shouldShowEmailDeliveryFailurePage options)
                 EmailDeliveryFailurePage |}.

(** The options a render in [pw] computes. *)
Definition pageOptions (props : Props) (st : HookState) (pw : PageWorld) : RenderOptions :=
  renderOptions CONST (page_env pw)
    (renderInput props st (page_isClientTheLeader pw)).

End Page.

Module PageSample.

Definition ROUTE : string := "transition/sso".

(** A translation that echoes its key, followed by the login parameter when
    there is one. *)
Definition translate (key : string) (params : option (gmap string string)) : string :=
  match params with
  | Some ps => String.append key (String.append ":" (default "" (ps !! "login")))
  | None => key
  end.

Definition formatPhoneNumber (s : string) : string :=
  String.append "+1 555 " s.

Definition removeSMSDomain (s : string) : string := s.

Definition isSMSLogin (s : string) : bool :=
  String.prefix "5" s.

Definition leaderOnWeb : PageWorld :=
  {| page_env := Sample.web;
     page_isClientTheLeader := true;
     page_isSmallScreenWidth := false;
     page_warnings := [];
     page_navigations := [] |}.

Definition followerOnWeb : PageWorld :=
  {| page_env := Sample.web;
     page_isClientTheLeader := false;
     page_isSmallScreenWidth := true;
     page_warnings := [];
     page_navigations := [] |}.

Definition state0 : HookState :=
  {| state_isUsingRecoveryCode := false; state_isUsingMagicCode := false |}.

Definition loginOnly (s : string) : Credentials :=
  {| login := Some s; twoFactorAuthCode := None; validateCode := None |}.

Definition codeOnly (s : string) : Credentials :=
  {| login := None; twoFactorAuthCode := None; validateCode := Some s |}.

Definition props (a : gmap string value) (c : Credentials) : Props :=
  {| props_account := a;
     props_credentials := c;
     props_isInModal := false;
     props_activeClients := ["client-1"] |}.

(** A secondary login of an unvalidated account. *)
Definition secondary : gmap string value :=
  <["primaryLogin" := VString "owner@example.com"]> (<["validated" := VBool false]> ∅).

Definition page (a : gmap string value) (c : Credentials) (pw : PageWorld) :
    Layout * PageWorld :=
  SignInPage Sample.CONST ROUTE translate formatPhoneNumber removeSMSDomain isSMSLogin
    (props a c) state0 pw.

End PageSample.

(** ** Facts about the JavaScript layer *)

Lemma isEmpty_decide (o : gmap string value) :
  Underscore.isEmpty o = bool_decide (o = ∅).
Proof.
  unfold Underscore.isEmpty, Underscore.keys.
  rewrite length_fmap.
  destruct (map_to_list o) as [|kv l] eqn:Hl; simpl.
  - apply map_to_list_empty_iff in Hl. by rewrite bool_decide_eq_true_2.
  - rewrite bool_decide_eq_false_2; [done|].
    intros ->. by rewrite map_to_list_empty in Hl.
Qed.

Lemma getProp_empty (k : string) : getProp ∅ k = VUndefined.
Proof. unfold getProp. by rewrite lookup_empty. Qed.

Lemma Boolean_getProp_nonempty (o : gmap string value) (k : string) :
  Boolean (getProp o k) = true → o ≠ ∅.
Proof. intros H ->. by rewrite getProp_empty in H. Qed.

Lemma strictEqualsString_true (v : value) (s : string) :
  strictEqualsString v s = true ↔ v = VString s.
Proof.
  destruct v; simpl; try (split; [discriminate | congruence]).
  rewrite String.eqb_eq. split; congruence.
Qed.

(** ** The function leaves the environment alone *)

Lemma getRenderOptions_world (CONST : Consts) (i : Input) (w : World) :
  (getRenderOptions CONST i w).2 = w.
Proof.
  unfold getRenderOptions, mbind, M_bind, mret, M_ret, getPlatform, Permissions.canUseSAML.
  by destruct (_ || _ || _).
Qed.

Lemma samlPermittedb_true (CONST : Consts) (w : World) :
  samlPermittedb CONST w = true ↔ samlPermitted CONST w.
Proof.
  unfold samlPermittedb, samlPermitted.
  rewrite !orb_true_iff, !String.eqb_eq. tauto.
Qed.

Lemma samlPermittedb_false (CONST : Consts) (w : World) :
  samlPermittedb CONST w = false ↔ ¬ samlPermitted CONST w.
Proof.
  rewrite <- samlPermittedb_true. by destruct (samlPermittedb CONST w).
Qed.

(** ** The record of results, flag by flag

    The two variables that the [if] assigns are each the conjunction of the
    gate with the assigned expression; the later flags are stated over the
    earlier ones, as in the source. *)

Ltac run_options :=
  unfold renderOptions, getRenderOptions, mbind, M_bind, mret, M_ret,
    getPlatform, Permissions.canUseSAML; simpl.

Section Flags.

Variables (CONST : Consts) (w : World) (i : Input).

Lemma shouldInitiateSAMLLogin_eq :
shouldInitiateSAMLLogin (renderOptions CONST w i)
= samlPermittedb CONST w
  && (negb (Underscore.isEmpty (account i)) && hasLogin i
      && Boolean (getProp (account i) "isSAMLRequired")
      && strictEqualsString (getProp (account i) "loadingForm") (FORMS_LOGIN_FORM CONST)).
Proof.
run_options. fold (samlPermittedb CONST w). by destruct (samlPermittedb CONST w).
Qed.

Lemma shouldShowChooseSSOOrMagicCode_eq :
shouldShowChooseSSOOrMagicCode (renderOptions CONST w i)
= samlPermittedb CONST w
  && (negb (Underscore.isEmpty (account i)) && hasLogin i
      && Boolean (getProp (account i) "isSAMLEnabled")
      && negb (Boolean (getProp (account i) "isSAMLRequired"))
      && negb (isUsingMagicCode i)).
Proof.
run_options. fold (samlPermittedb CONST w). by destruct (samlPermittedb CONST w).
Qed.

Lemma shouldShowUnlinkLoginForm_eq :
shouldShowUnlinkLoginForm (renderOptions CONST w i)
= hasLogin i && negb (isPrimaryLogin i)
  && negb (Boolean (getProp (account i) "validated"))
  && negb (Boolean (getProp (account i) "hasEmailDeliveryFailure")).
Proof. run_options. by destruct (_ || _ || _). Qed.

Lemma shouldShowLoginForm_eq :
shouldShowLoginForm (renderOptions CONST w i)
= if Boolean (getProp (account i) "isSAMLRequired")
     && negb (shouldInitiateSAMLLogin (renderOptions CONST w i))
  then isClientTheLeader i
  else isClientTheLeader i && negb (hasLogin i) && negb (hasValidateCode i).
Proof. run_options. by destruct (_ || _ || _). Qed.

Lemma shouldShowEmailDeliveryFailurePage_eq :
shouldShowEmailDeliveryFailurePage (renderOptions CONST w i)
= hasLogin i && Boolean (getProp (account i) "hasEmailDeliveryFailure")
  && negb (shouldShowChooseSSOOrMagicCode (renderOptions CONST w i))
  && negb (shouldInitiateSAMLLogin (renderOptions CONST w i)).
Proof. run_options. by destruct (_ || _ || _). Qed.

Lemma shouldShowValidateCodeForm_eq :
shouldShowValidateCodeForm (renderOptions CONST w i)
= negb (Underscore.isEmpty (account i)) && (hasLogin i || hasValidateCode i)
  && negb (shouldShowUnlinkLoginForm (renderOptions CONST w i))
  && negb (Boolean (getProp (account i) "hasEmailDeliveryFailure"))
  && negb (shouldShowChooseSSOOrMagicCode (renderOptions CONST w i))
  && negb (Boolean (getProp (account i) "isSAMLRequired")).
Proof. run_options. by destruct (_ || _ || _). Qed.

Lemma shouldShowWelcomeHeader_eq :
shouldShowWelcomeHeader (renderOptions CONST w i)
= shouldShowLoginForm (renderOptions CONST w i)
  || shouldShowValidateCodeForm (renderOptions CONST w i)
  || shouldShowChooseSSOOrMagicCode (renderOptions CONST w i)
  || shouldShowUnlinkLoginForm (renderOptions CONST w i).
Proof. run_options. by destruct (_ || _ || _). Qed.

Lemma shouldShowWelcomeText_eq :
shouldShowWelcomeText (renderOptions CONST w i)
= shouldShowLoginForm (renderOptions CONST w i)
  || shouldShowValidateCodeForm (renderOptions CONST w i)
  || shouldShowChooseSSOOrMagicCode (renderOptions CONST w i)
  || negb (isClientTheLeader i).
Proof. run_options. by destruct (_ || _ || _). Qed.

End Flags.

(** Rewrite every form flag into the booleans it is computed from. *)
Ltac flags :=
  rewrite ?shouldShowLoginForm_eq, ?shouldShowValidateCodeForm_eq,
    ?shouldShowEmailDeliveryFailurePage_eq, ?shouldShowUnlinkLoginForm_eq,
    ?shouldShowChooseSSOOrMagicCode_eq, ?shouldInitiateSAMLLogin_eq.

(** ** What the samples evaluate to *)

Example eval_samlRequiredBouncing :
  renderOptions Sample.CONST Sample.web (Sample.withLogin Sample.samlRequiredBouncing true)
  = {| shouldShowLoginForm := true;
       shouldShowEmailDeliveryFailurePage := true;
       shouldShowUnlinkLoginForm := false;
       shouldShowValidateCodeForm := false;
       shouldShowChooseSSOOrMagicCode := false;
       shouldInitiateSAMLLogin := false;
       shouldShowWelcomeHeader := true;
       shouldShowWelcomeText := true |}.
Proof. vm_compute. reflexivity. Qed.

Example eval_samlRequiredLoading :
  renderOptions Sample.CONST Sample.web (Sample.withLogin Sample.samlRequiredLoading true)
  = {| shouldShowLoginForm := false;
       shouldShowEmailDeliveryFailurePage := false;
       shouldShowUnlinkLoginForm := false;
       shouldShowValidateCodeForm := false;
       shouldShowChooseSSOOrMagicCode := false;
       shouldInitiateSAMLLogin := true;
       shouldShowWelcomeHeader := false;
       shouldShowWelcomeText := false |}.
Proof. vm_compute. reflexivity. Qed.

(** On a platform outside the gate the same account is not redirected, and
    the override of the login form applies. *)
Example eval_samlRequiredLoading_ios :
  renderOptions Sample.CONST Sample.ios (Sample.withLogin Sample.samlRequiredLoading true)
  = {| shouldShowLoginForm := true;
       shouldShowEmailDeliveryFailurePage := true;
       shouldShowUnlinkLoginForm := false;
       shouldShowValidateCodeForm := false;
       shouldShowChooseSSOOrMagicCode := false;
       shouldInitiateSAMLLogin := false;
       shouldShowWelcomeHeader := true;
       shouldShowWelcomeText := true |}.
Proof. vm_compute. reflexivity. Qed.

(** The login form next to the unlink form. *)
Example eval_samlRequiredUnvalidated :
  renderOptions Sample.CONST Sample.web (Sample.withLogin Sample.samlRequiredUnvalidated false)
  = {| shouldShowLoginForm := true;
       shouldShowEmailDeliveryFailurePage := false;
       shouldShowUnlinkLoginForm := true;
       shouldShowValidateCodeForm := false;
       shouldShowChooseSSOOrMagicCode := false;
       shouldInitiateSAMLLogin := false;
       shouldShowWelcomeHeader := true;
       shouldShowWelcomeText := true |}.
Proof. vm_compute. reflexivity. Qed.

(** The unlink form next to the SSO chooser. *)
Example eval_samlOptionalUnvalidated :
  renderOptions Sample.CONST Sample.web (Sample.withLogin Sample.samlOptionalUnvalidated false)
  = {| shouldShowLoginForm := false;
       shouldShowEmailDeliveryFailurePage := false;
       shouldShowUnlinkLoginForm := true;
       shouldShowValidateCodeForm := false;
       shouldShowChooseSSOOrMagicCode := true;
       shouldInitiateSAMLLogin := false;
       shouldShowWelcomeHeader := true;
       shouldShowWelcomeText := true |}.
Proof. vm_compute. reflexivity. Qed.

Example eval_plainValidated :
  renderOptions Sample.CONST Sample.web (Sample.withLogin Sample.plainValidated true)
  = {| shouldShowLoginForm := false;
       shouldShowEmailDeliveryFailurePage := false;
       shouldShowUnlinkLoginForm := false;
       shouldShowValidateCodeForm := true;
       shouldShowChooseSSOOrMagicCode := false;
       shouldInitiateSAMLLogin := false;
       shouldShowWelcomeHeader := true;
       shouldShowWelcomeText := true |}.
Proof. vm_compute. reflexivity. Qed.

Example eval_fresh :
  renderOptions Sample.CONST Sample.web Sample.fresh
  = {| shouldShowLoginForm := true;
       shouldShowEmailDeliveryFailurePage := false;
       shouldShowUnlinkLoginForm := false;
       shouldShowValidateCodeForm := false;
       shouldShowChooseSSOOrMagicCode := false;
       shouldInitiateSAMLLogin := false;
       shouldShowWelcomeHeader := true;
       shouldShowWelcomeText := true |}.
Proof. vm_compute. reflexivity. Qed.

(** ** Properties of the decision table *)

(** C1, as the specification states it, fails: for a SAML-only account whose
    e-mails bounce, the login form and the delivery-failure page are both
    selected, and the unlink form is not. *)
Lemma login_form_beside_delivery_failure_page :
  ¬ specExclusive
      (renderOptions Sample.CONST Sample.web
         (Sample.withLogin Sample.samlRequiredBouncing true)).
Proof.
  rewrite eval_samlRequiredBouncing.
  unfold specExclusive, activeForms, formFlags; simpl.
  intros [Hle | (_ & Hunlink & _)]; [lia | discriminate].
Qed.

(** The validate-code form excludes every other form. *)
Lemma validate_code_form_alone (CONST : Consts) (w : World) (i : Input) :
  shouldShowValidateCodeForm (renderOptions CONST w i) = true →
  shouldShowLoginForm (renderOptions CONST w i) = false
  ∧ shouldShowUnlinkLoginForm (renderOptions CONST w i) = false
  ∧ shouldShowChooseSSOOrMagicCode (renderOptions CONST w i) = false
  ∧ shouldShowEmailDeliveryFailurePage (renderOptions CONST w i) = false.
Proof.
  rewrite shouldShowValidateCodeForm_eq, shouldShowLoginForm_eq,
    shouldShowEmailDeliveryFailurePage_eq.
  rewrite !andb_true_iff, !negb_true_iff, orb_true_iff.
  intros (((((_ & Hcred) & ->) & ->) & ->) & ->); simpl.
  rewrite andb_false_r; simpl.
  repeat split; destruct Hcred as [-> | ->]; simpl; by rewrite ?andb_false_r.
Qed.

(** The SSO chooser excludes the login form and the delivery-failure page. *)
Lemma sso_chooser_excludes (CONST : Consts) (w : World) (i : Input) :
  shouldShowChooseSSOOrMagicCode (renderOptions CONST w i) = true →
  shouldShowLoginForm (renderOptions CONST w i) = false
  ∧ shouldShowEmailDeliveryFailurePage (renderOptions CONST w i) = false.
Proof.
  intros Hsso.
  rewrite shouldShowLoginForm_eq, shouldShowEmailDeliveryFailurePage_eq, Hsso.
  rewrite shouldShowChooseSSOOrMagicCode_eq in Hsso.
  rewrite !andb_true_iff, !negb_true_iff in Hsso.
  destruct Hsso as (_ & (((_ & ->) & _) & ->) & _); simpl.
  by rewrite !andb_false_r.
Qed.

(** The unlink form and the delivery-failure page ask opposite things of
    [hasEmailDeliveryFailure]. *)
Lemma unlink_excludes_delivery_failure (CONST : Consts) (w : World) (i : Input) :
  ¬ (shouldShowUnlinkLoginForm (renderOptions CONST w i) = true
     ∧ shouldShowEmailDeliveryFailurePage (renderOptions CONST w i) = true).
Proof.
  rewrite shouldShowUnlinkLoginForm_eq, shouldShowEmailDeliveryFailurePage_eq.
  rewrite !andb_true_iff, !negb_true_iff. intros [(_ & Hno) (((_ & Hyes) & _) & _)].
  congruence.
Qed.

(** With a login typed, the login form is only kept by the SAML override. *)
Lemma login_form_with_login (CONST : Consts) (w : World) (i : Input) :
  shouldShowLoginForm (renderOptions CONST w i) = true →
  hasLogin i = true →
  Boolean (getProp (account i) "isSAMLRequired") = true
  ∧ shouldInitiateSAMLLogin (renderOptions CONST w i) = false.
Proof.
  rewrite shouldShowLoginForm_eq. intros Hshow Hlogin. rewrite Hlogin in Hshow.
  destruct (Boolean _); destruct (shouldInitiateSAMLLogin _); simpl in Hshow;
    rewrite ?andb_false_r in Hshow; done.
Qed.

Lemma unlink_has_login (CONST : Consts) (w : World) (i : Input) :
  shouldShowUnlinkLoginForm (renderOptions CONST w i) = true → hasLogin i = true.
Proof.
  rewrite shouldShowUnlinkLoginForm_eq, !andb_true_iff. tauto.
Qed.

Lemma delivery_failure_has_login (CONST : Consts) (w : World) (i : Input) :
  shouldShowEmailDeliveryFailurePage (renderOptions CONST w i) = true → hasLogin i = true.
Proof.
  rewrite shouldShowEmailDeliveryFailurePage_eq, !andb_true_iff. tauto.
Qed.

(** C1, amended: at most one of the five form flags is set, with two
    exceptions, each of exactly two flags.  The login form may stand beside
    the unlink form or the delivery-failure page, and only when the account
    requires SAML and the SAML login is not being initiated; the unlink form
    may stand beside the SSO chooser.  The unlink form and the
    delivery-failure page are never both selected. *)
Theorem form_flags_exclusive_up_to_overrides (CONST : Consts) (w : World) (i : Input) :
  let r := renderOptions CONST w i in
  (activeForms r ≤ 1
   ∨ (activeForms r = 2
      ∧ shouldShowLoginForm r = true
      ∧ (shouldShowUnlinkLoginForm r = true ∨ shouldShowEmailDeliveryFailurePage r = true)
      ∧ Boolean (getProp (account i) "isSAMLRequired") = true
      ∧ shouldInitiateSAMLLogin r = false)
   ∨ (activeForms r = 2
      ∧ shouldShowUnlinkLoginForm r = true
      ∧ shouldShowChooseSSOOrMagicCode r = true))
  ∧ ¬ (shouldShowUnlinkLoginForm r = true ∧ shouldShowEmailDeliveryFailurePage r = true).
Proof.
  intros r; subst r. split; [| apply unlink_excludes_delivery_failure ].
  pose proof (validate_code_form_alone CONST w i) as Hcode.
  pose proof (sso_chooser_excludes CONST w i) as Hsso.
  pose proof (unlink_excludes_delivery_failure CONST w i) as Hnot.
  pose proof (login_form_with_login CONST w i) as Hlogin.
  pose proof (unlink_has_login CONST w i) as Hunlink.
  pose proof (delivery_failure_has_login CONST w i) as Hfail.
  unfold activeForms, formFlags; simpl.
  destruct (shouldShowLoginForm _), (shouldShowValidateCodeForm _),
    (shouldShowUnlinkLoginForm _), (shouldShowChooseSSOOrMagicCode _),
    (shouldShowEmailDeliveryFailurePage _); simpl;
    intuition (first [ lia | congruence ]).
Qed.

(** C2: when the account requires SAML and the SAML login is not being
    initiated, the login form is shown exactly when this client is the leader,
    whatever [hasLogin] and [hasValidateCode] are. *)
Theorem saml_required_shows_login_to_leader (CONST : Consts) (w : World) (i : Input) :
  Boolean (getProp (account i) "isSAMLRequired") = true →
  shouldInitiateSAMLLogin (renderOptions CONST w i) = false →
  shouldShowLoginForm (renderOptions CONST w i) = isClientTheLeader i.
Proof.
  intros Hreq Hinit. rewrite shouldShowLoginForm_eq. by rewrite Hreq, Hinit.
Qed.

Lemma saml_required_shows_login_to_leader_witness :
  Boolean (getProp Sample.samlRequiredBouncing "isSAMLRequired") = true
  ∧ shouldShowLoginForm
      (renderOptions Sample.CONST Sample.web
         (Sample.withLogin Sample.samlRequiredBouncing true)) = true.
Proof.
  split; [ vm_compute; reflexivity |].
  apply (saml_required_shows_login_to_leader Sample.CONST Sample.web
           (Sample.withLogin Sample.samlRequiredBouncing true));
    vm_compute; reflexivity.
Defined.

(** C3, as the specification states it, fails: with a login, bouncing
    e-mails and SAML not enabled, but SAML required and the login form being
    submitted on the web, the SAML login is initiated and the
    delivery-failure page is not shown. *)
Lemma delivery_failure_page_yields_to_saml_login :
  let i := Sample.withLogin Sample.samlRequiredLoading true in
  Boolean (getProp (account i) "hasEmailDeliveryFailure") = true
  ∧ hasLogin i = true
  ∧ Boolean (getProp (account i) "isSAMLEnabled") = false
  ∧ shouldShowEmailDeliveryFailurePage (renderOptions Sample.CONST Sample.web i) = false.
Proof. vm_compute. done. Qed.

(** C3, amended: with [account.hasEmailDeliveryFailure] true, [hasLogin] true
    and [account.isSAMLEnabled] false, the validate-code form is not shown,
    and the delivery-failure page is shown exactly when the SAML login is not
    being initiated. *)
Theorem delivery_failure_page_unless_saml_login (CONST : Consts) (w : World) (i : Input) :
  Boolean (getProp (account i) "hasEmailDeliveryFailure") = true →
  hasLogin i = true →
  Boolean (getProp (account i) "isSAMLEnabled") = false →
  shouldShowEmailDeliveryFailurePage (renderOptions CONST w i)
  = negb (shouldInitiateSAMLLogin (renderOptions CONST w i))
  ∧ shouldShowValidateCodeForm (renderOptions CONST w i) = false.
Proof.
  intros Hfail Hlogin Hsaml.
  rewrite shouldShowEmailDeliveryFailurePage_eq, shouldShowValidateCodeForm_eq.
  rewrite shouldShowChooseSSOOrMagicCode_eq, Hfail, Hlogin, Hsaml; simpl.
  by rewrite !andb_false_r.
Qed.

Lemma delivery_failure_page_unless_saml_login_witness :
  shouldShowEmailDeliveryFailurePage
    (renderOptions Sample.CONST Sample.web (Sample.withLogin Sample.bouncing true)) = true
  ∧ shouldShowValidateCodeForm
      (renderOptions Sample.CONST Sample.web (Sample.withLogin Sample.bouncing true)) = false.
Proof.
  apply (delivery_failure_page_unless_saml_login Sample.CONST Sample.web
           (Sample.withLogin Sample.bouncing true));
    vm_compute; reflexivity.
Defined.

(** C4: the validate-code form is shown if and only if the account is
    non-empty, a login or a validate code is present, the login is not an
    unvalidated secondary login, e-mail delivery has not failed, the SSO
    chooser is not shown and SAML is not required. *)
Theorem validate_code_form_iff (CONST : Consts) (w : World) (i : Input) :
  shouldShowValidateCodeForm (renderOptions CONST w i) = true
  ↔ account i ≠ ∅
    ∧ (hasLogin i = true ∨ hasValidateCode i = true)
    ∧ ¬ specUnvalidatedSecondaryLogin i
    ∧ Boolean (getProp (account i) "hasEmailDeliveryFailure") = false
    ∧ shouldShowChooseSSOOrMagicCode (renderOptions CONST w i) = false
    ∧ Boolean (getProp (account i) "isSAMLRequired") = false.
Proof.
  rewrite shouldShowValidateCodeForm_eq, shouldShowUnlinkLoginForm_eq.
  rewrite isEmpty_decide. unfold specUnvalidatedSecondaryLogin.
  rewrite !andb_true_iff, orb_true_iff, !negb_true_iff, bool_decide_eq_false.
  rewrite !andb_false_iff, !negb_false_iff.
  destruct (hasLogin i), (isPrimaryLogin i), (Boolean (getProp (account i) "validated")),
    (Boolean (getProp (account i) "hasEmailDeliveryFailure")); intuition congruence.
Qed.

(** C5: inside the platform gate the SAML login is initiated if and only if
    the account is non-empty, a login is present, SAML is required and the
    form being loaded is the login form; outside the gate neither the SAML
    login is initiated nor the SSO chooser shown. *)
Theorem saml_login_gate (CONST : Consts) (w : World) (i : Input) :
  (samlPermitted CONST w →
   (shouldInitiateSAMLLogin (renderOptions CONST w i) = true
    ↔ account i ≠ ∅
      ∧ hasLogin i = true
      ∧ Boolean (getProp (account i) "isSAMLRequired") = true
      ∧ getProp (account i) "loadingForm" = VString (FORMS_LOGIN_FORM CONST)))
  ∧ (¬ samlPermitted CONST w →
     shouldInitiateSAMLLogin (renderOptions CONST w i) = false
     ∧ shouldShowChooseSSOOrMagicCode (renderOptions CONST w i) = false).
Proof.
  rewrite shouldInitiateSAMLLogin_eq, shouldShowChooseSSOOrMagicCode_eq.
  split.
  - intros Hgate. apply samlPermittedb_true in Hgate. rewrite Hgate; simpl.
    rewrite isEmpty_decide, !andb_true_iff, negb_true_iff, bool_decide_eq_false.
    rewrite strictEqualsString_true. tauto.
  - intros Hgate. apply samlPermittedb_false in Hgate. by rewrite Hgate.
Qed.

(** C6: on the web, for a non-empty account with SAML enabled but not
    required, a login present and magic codes not chosen, the SSO chooser is
    shown and the validate-code form is not. *)
Theorem sso_chooser_on_web (CONST : Consts) (w : World) (i : Input) :
  world_platform w = PLATFORM_WEB CONST →
  account i ≠ ∅ →
  Boolean (getProp (account i) "isSAMLEnabled") = true →
  Boolean (getProp (account i) "isSAMLRequired") = false →
  isUsingMagicCode i = false →
  hasLogin i = true →
  shouldShowChooseSSOOrMagicCode (renderOptions CONST w i) = true
  ∧ shouldShowValidateCodeForm (renderOptions CONST w i) = false.
Proof.
  intros Hweb Hacc Hen Hreq Hmagic Hlogin.
  assert (shouldShowChooseSSOOrMagicCode (renderOptions CONST w i) = true) as Hsso.
  { rewrite shouldShowChooseSSOOrMagicCode_eq, isEmpty_decide.
    rewrite (proj2 (samlPermittedb_true CONST w)) by (right; by left).
    rewrite bool_decide_eq_false_2 by done.
    by rewrite Hen, Hreq, Hmagic, Hlogin. }
  split; [done|].
  rewrite shouldShowValidateCodeForm_eq, Hsso; simpl. by rewrite andb_false_r.
Qed.

Lemma sso_chooser_on_web_witness :
  shouldShowChooseSSOOrMagicCode
    (renderOptions Sample.CONST Sample.web
       (Sample.withLogin Sample.samlOptionalUnvalidated true)) = true
  ∧ shouldShowValidateCodeForm
      (renderOptions Sample.CONST Sample.web
         (Sample.withLogin Sample.samlOptionalUnvalidated true)) = false.
Proof.
  apply (sso_chooser_on_web Sample.CONST Sample.web
           (Sample.withLogin Sample.samlOptionalUnvalidated true));
    try (vm_compute; reflexivity).
  apply (Boolean_getProp_nonempty _ "isSAMLEnabled"). vm_compute; reflexivity.
Defined.

(** C7: without a login and without a validate code, the leader client is
    shown the login form and nothing else, whatever the account is. *)
Theorem leader_without_credentials_sees_login_form
    (CONST : Consts) (w : World) (i : Input) :
  hasLogin i = false →
  hasValidateCode i = false →
  isClientTheLeader i = true →
  shouldShowLoginForm (renderOptions CONST w i) = true
  ∧ shouldShowValidateCodeForm (renderOptions CONST w i) = false
  ∧ shouldShowUnlinkLoginForm (renderOptions CONST w i) = false
  ∧ shouldShowChooseSSOOrMagicCode (renderOptions CONST w i) = false
  ∧ shouldShowEmailDeliveryFailurePage (renderOptions CONST w i) = false
  ∧ shouldInitiateSAMLLogin (renderOptions CONST w i) = false.
Proof.
  intros Hlogin Hcode Hleader. flags. rewrite Hlogin, Hcode, Hleader; simpl.
  rewrite ?andb_false_r; simpl. rewrite ?andb_false_r.
  by destruct (Boolean _).
Qed.

Lemma leader_without_credentials_sees_login_form_witness :
  shouldShowLoginForm (renderOptions Sample.CONST Sample.web Sample.fresh) = true
  ∧ shouldShowValidateCodeForm (renderOptions Sample.CONST Sample.web Sample.fresh) = false
  ∧ shouldShowUnlinkLoginForm (renderOptions Sample.CONST Sample.web Sample.fresh) = false
  ∧ shouldShowChooseSSOOrMagicCode (renderOptions Sample.CONST Sample.web Sample.fresh) = false
  ∧ shouldShowEmailDeliveryFailurePage (renderOptions Sample.CONST Sample.web Sample.fresh)
    = false
  ∧ shouldInitiateSAMLLogin (renderOptions Sample.CONST Sample.web Sample.fresh) = false.
Proof.
  apply (leader_without_credentials_sees_login_form Sample.CONST Sample.web Sample.fresh);
    reflexivity.
Defined.

(** C8: a login that is present, not primary, on an account that is not
    validated and has no e-mail delivery failure, is shown the unlink form. *)
Theorem unvalidated_secondary_login_sees_unlink_form
    (CONST : Consts) (w : World) (i : Input) :
  isPrimaryLogin i = false →
  Boolean (getProp (account i) "validated") = false →
  hasLogin i = true →
  Boolean (getProp (account i) "hasEmailDeliveryFailure") = false →
  shouldShowUnlinkLoginForm (renderOptions CONST w i) = true.
Proof.
  intros Hprimary Hvalid Hlogin Hfail.
  by rewrite shouldShowUnlinkLoginForm_eq, Hprimary, Hvalid, Hlogin, Hfail.
Qed.

Lemma unvalidated_secondary_login_sees_unlink_form_witness :
  shouldShowUnlinkLoginForm
    (renderOptions Sample.CONST Sample.ios
       (Sample.withLogin Sample.samlOptionalUnvalidated false)) = true.
Proof.
  apply (unvalidated_secondary_login_sees_unlink_form Sample.CONST Sample.ios
           (Sample.withLogin Sample.samlOptionalUnvalidated false));
    vm_compute; reflexivity.
Defined.

(** C10: for an empty account the validate-code form and the SSO chooser are
    not shown and the SAML login is not initiated, whatever the other inputs,
    the platform and the feature flag are. *)
Theorem empty_account_shows_no_account_form (CONST : Consts) (w : World) (i : Input) :
  account i = ∅ →
  shouldShowValidateCodeForm (renderOptions CONST w i) = false
  ∧ shouldShowChooseSSOOrMagicCode (renderOptions CONST w i) = false
  ∧ shouldInitiateSAMLLogin (renderOptions CONST w i) = false.
Proof.
  intros Hempty. flags. rewrite isEmpty_decide, bool_decide_eq_true_2 by done; simpl.
  by rewrite !andb_false_r.
Qed.

Lemma empty_account_shows_no_account_form_witness :
  shouldShowValidateCodeForm
    (renderOptions Sample.CONST Sample.web (Sample.withLogin ∅ true)) = false
  ∧ shouldShowChooseSSOOrMagicCode
      (renderOptions Sample.CONST Sample.web (Sample.withLogin ∅ true)) = false
  ∧ shouldInitiateSAMLLogin
      (renderOptions Sample.CONST Sample.web (Sample.withLogin ∅ true)) = false.
Proof.
  apply (empty_account_shows_no_account_form Sample.CONST Sample.web
           (Sample.withLogin ∅ true)).
  reflexivity.
Defined.

(** ** Further properties of [getRenderOptions] *)

Lemma getRenderOptions_run (CONST : Consts) (i : Input) (w : World) :
  getRenderOptions CONST i w = (renderOptions CONST w i, w).
Proof.
  unfold renderOptions. rewrite <- (getRenderOptions_world CONST i w) at 3.
  by destruct (getRenderOptions CONST i w).
Qed.

Lemma getProp_insert_ne (o : gmap string value) (k k' : string) (v : value) :
  k ≠ k' → getProp (<[k:=v]> o) k' = getProp o k'.
Proof. intros Hne. unfold getProp. by rewrite lookup_insert_ne. Qed.

Lemma isEmpty_insert (o : gmap string value) (k : string) (v : value) :
  Underscore.isEmpty (<[k:=v]> o) = false.
Proof.
  rewrite isEmpty_decide. apply bool_decide_eq_false_2, insert_non_empty.
Qed.

(** X1: when the SAML login is initiated, the login form, the validate-code
    form, the SSO chooser and the delivery-failure page are all hidden. *)
Theorem saml_login_hides_forms (CONST : Consts) (w : World) (i : Input) :
  shouldInitiateSAMLLogin (renderOptions CONST w i) = true →
  shouldShowLoginForm (renderOptions CONST w i) = false
  ∧ shouldShowValidateCodeForm (renderOptions CONST w i) = false
  ∧ shouldShowChooseSSOOrMagicCode (renderOptions CONST w i) = false
  ∧ shouldShowEmailDeliveryFailurePage (renderOptions CONST w i) = false.
Proof.
  intros Hinit.
  rewrite shouldShowLoginForm_eq, shouldShowValidateCodeForm_eq,
    shouldShowEmailDeliveryFailurePage_eq, Hinit, shouldShowChooseSSOOrMagicCode_eq.
  rewrite shouldInitiateSAMLLogin_eq, !andb_true_iff in Hinit.
  destruct Hinit as (_ & ((_ & ->) & ->) & _); simpl.
  by rewrite ?andb_false_r.
Qed.

Lemma saml_login_hides_forms_witness :
  let r := renderOptions Sample.CONST Sample.web
             (Sample.withLogin Sample.samlRequiredLoading true) in
  shouldShowLoginForm r = false
  ∧ shouldShowValidateCodeForm r = false
  ∧ shouldShowChooseSSOOrMagicCode r = false
  ∧ shouldShowEmailDeliveryFailurePage r = false.
Proof.
  apply (saml_login_hides_forms Sample.CONST Sample.web
           (Sample.withLogin Sample.samlRequiredLoading true)).
  vm_compute; reflexivity.
Defined.

(** X2: the login form is only ever visible on the leader client. *)
Theorem login_form_only_for_leader (CONST : Consts) (w : World) (i : Input) :
  shouldShowLoginForm (renderOptions CONST w i) = true → isClientTheLeader i = true.
Proof.
  rewrite shouldShowLoginForm_eq.
  destruct (_ && _); [done|]. rewrite !andb_true_iff. tauto.
Qed.

Lemma login_form_only_for_leader_witness : isClientTheLeader Sample.fresh = true.
Proof.
  apply (login_form_only_for_leader Sample.CONST Sample.web Sample.fresh).
  vm_compute; reflexivity.
Defined.

(** X3: with a non-empty account, a login present and SAML not required, the
    login form is hidden and at least one of the validate-code form, the
    unlink form, the SSO chooser and the delivery-failure page is shown. *)
Theorem account_with_login_shows_a_form (CONST : Consts) (w : World) (i : Input) :
  account i ≠ ∅ →
  hasLogin i = true →
  Boolean (getProp (account i) "isSAMLRequired") = false →
  shouldShowLoginForm (renderOptions CONST w i) = false
  ∧ (shouldShowValidateCodeForm (renderOptions CONST w i) = true
     ∨ shouldShowUnlinkLoginForm (renderOptions CONST w i) = true
     ∨ shouldShowChooseSSOOrMagicCode (renderOptions CONST w i) = true
     ∨ shouldShowEmailDeliveryFailurePage (renderOptions CONST w i) = true).
Proof.
  intros Hacc Hlogin Hreq.
  rewrite shouldShowLoginForm_eq, shouldShowValidateCodeForm_eq,
    shouldShowEmailDeliveryFailurePage_eq, shouldInitiateSAMLLogin_eq.
  rewrite isEmpty_decide, bool_decide_eq_false_2, Hlogin, Hreq by done; simpl.
  rewrite ?andb_false_r; simpl. split; [by rewrite ?andb_false_r|].
  destruct (shouldShowUnlinkLoginForm _) eqn:Hunlink; [tauto|].
  destruct (shouldShowChooseSSOOrMagicCode _); [tauto|].
  destruct (Boolean (getProp (account i) "hasEmailDeliveryFailure")); simpl; tauto.
Qed.

Lemma account_with_login_shows_a_form_witness :
  let r := renderOptions Sample.CONST Sample.ios
             (Sample.withLogin Sample.bouncing true) in
  shouldShowLoginForm r = false
  ∧ (shouldShowValidateCodeForm r = true
     ∨ shouldShowUnlinkLoginForm r = true
     ∨ shouldShowChooseSSOOrMagicCode r = true
     ∨ shouldShowEmailDeliveryFailurePage r = true).
Proof.
  apply (account_with_login_shows_a_form Sample.CONST Sample.ios
           (Sample.withLogin Sample.bouncing true));
    try (vm_compute; reflexivity).
  apply (Boolean_getProp_nonempty _ "validated"). vm_compute; reflexivity.
Defined.

(** X4: once the user who is offered the SSO chooser opts for a magic code,
    the chooser goes away and exactly one form takes its place, which is not
    the login form. *)
Theorem magic_code_replaces_sso_chooser (CONST : Consts) (w : World) (i : Input) :
  shouldShowChooseSSOOrMagicCode (renderOptions CONST w i) = true →
  shouldShowChooseSSOOrMagicCode (renderOptions CONST w (withMagicCode i true)) = false
  ∧ shouldShowLoginForm (renderOptions CONST w (withMagicCode i true)) = false
  ∧ activeForms (renderOptions CONST w (withMagicCode i true)) = 1.
Proof.
  intros Hsso. rewrite shouldShowChooseSSOOrMagicCode_eq, !andb_true_iff in Hsso.
  destruct Hsso as (_ & ((((Hacc & Hlogin) & _) & Hreq) & _)).
  apply negb_true_iff in Hreq.
  unfold activeForms, formFlags; simpl.
  rewrite shouldShowLoginForm_eq, shouldShowValidateCodeForm_eq,
    shouldShowEmailDeliveryFailurePage_eq, shouldShowUnlinkLoginForm_eq,
    shouldShowChooseSSOOrMagicCode_eq, shouldInitiateSAMLLogin_eq; simpl.
  rewrite Hacc, Hlogin, Hreq; simpl. rewrite ?andb_false_r; simpl.
  destruct (isPrimaryLogin i), (Boolean (getProp (account i) "validated")),
    (Boolean (getProp (account i) "hasEmailDeliveryFailure")); done.
Qed.

Lemma magic_code_replaces_sso_chooser_witness :
  let i := withMagicCode (Sample.withLogin Sample.samlOptionalUnvalidated true) true in
  shouldShowChooseSSOOrMagicCode (renderOptions Sample.CONST Sample.web i) = false
  ∧ shouldShowLoginForm (renderOptions Sample.CONST Sample.web i) = false
  ∧ activeForms (renderOptions Sample.CONST Sample.web i) = 1.
Proof.
  apply (magic_code_replaces_sso_chooser Sample.CONST Sample.web
           (Sample.withLogin Sample.samlOptionalUnvalidated true)).
  vm_compute; reflexivity.
Defined.

(** X5: on a non-empty account, setting a property other than the five the
    function reads changes none of the returned options. *)
Theorem unread_property_is_ignored
    (CONST : Consts) (w : World) (i : Input) (k : string) (v : value) :
  k ∉ readKeys →
  account i ≠ ∅ →
  renderOptions CONST w (withAccount i (<[k:=v]> (account i))) = renderOptions CONST w i.
Proof.
  intros Hk Hacc. unfold readKeys in Hk.
  rewrite !not_elem_of_cons in Hk. destruct Hk as (? & ? & ? & ? & ? & _).
  run_options.
  rewrite isEmpty_insert, (isEmpty_decide (account i)), bool_decide_eq_false_2 by done.
  by rewrite !getProp_insert_ne by done.
Qed.

Lemma unread_property_is_ignored_witness :
  renderOptions Sample.CONST Sample.web
    (withAccount (Sample.withLogin Sample.plainValidated true)
       (<["isLoading" := VBool true]> Sample.plainValidated))
  = renderOptions Sample.CONST Sample.web (Sample.withLogin Sample.plainValidated true).
Proof.
  apply (unread_property_is_ignored Sample.CONST Sample.web
           (Sample.withLogin Sample.plainValidated true) "isLoading" (VBool true)).
  - unfold readKeys. rewrite !not_elem_of_cons. repeat split; try discriminate.
    apply not_elem_of_nil.
  - apply (Boolean_getProp_nonempty _ "validated"). vm_compute; reflexivity.
Defined.

(** On an empty account the same update is seen: the object now counts as an
    account. *)
Example unread_property_on_empty_account :
  shouldShowValidateCodeForm
    (renderOptions Sample.CONST Sample.web (Sample.withLogin ∅ true)) = false
  ∧ shouldShowValidateCodeForm
      (renderOptions Sample.CONST Sample.web
         (Sample.withLogin (<["isLoading" := VBool false]> ∅) true)) = true.
Proof. vm_compute. done. Qed.

(** For the leader client, no form is selected and no SAML login initiated
    in two situations only: a login without an account, and a validate code
    without a login when there is no account or its e-mails bounce. *)
Lemma nothing_selected_iff (CONST : Consts) (w : World) (i : Input) :
  isClientTheLeader i = true →
  (shouldShowLoginForm (renderOptions CONST w i) = false
   ∧ shouldShowValidateCodeForm (renderOptions CONST w i) = false
   ∧ shouldShowUnlinkLoginForm (renderOptions CONST w i) = false
   ∧ shouldShowEmailDeliveryFailurePage (renderOptions CONST w i) = false
   ∧ shouldShowChooseSSOOrMagicCode (renderOptions CONST w i) = false
   ∧ shouldInitiateSAMLLogin (renderOptions CONST w i) = false)
  ↔ (hasLogin i = true ∧ account i = ∅ ∧ isPrimaryLogin i = true)
    ∨ (hasLogin i = false
       ∧ hasValidateCode i = true
       ∧ (account i = ∅
          ∨ (Boolean (getProp (account i) "hasEmailDeliveryFailure") = true
             ∧ Boolean (getProp (account i) "isSAMLRequired") = false))).
Proof.
  intros Hleader.
  rewrite shouldShowLoginForm_eq, shouldShowValidateCodeForm_eq,
    shouldShowEmailDeliveryFailurePage_eq, shouldShowUnlinkLoginForm_eq,
    shouldShowChooseSSOOrMagicCode_eq, shouldInitiateSAMLLogin_eq.
  rewrite Hleader, isEmpty_decide.
  destruct (decide (account i = ∅)) as [Hemp | Hacc].
  - rewrite Hemp, !getProp_empty, bool_decide_eq_true_2 by done; simpl.
    rewrite ?andb_false_r; simpl.
    destruct (hasLogin i), (hasValidateCode i), (isPrimaryLogin i); simpl;
      intuition congruence.
  - rewrite bool_decide_eq_false_2 by done; simpl.
    destruct (hasLogin i), (hasValidateCode i),
      (Boolean (getProp (account i) "isSAMLRequired")),
      (Boolean (getProp (account i) "hasEmailDeliveryFailure")); simpl;
      rewrite ?andb_false_r, ?andb_true_r; simpl;
      try solve [intuition congruence];
      destruct (samlPermittedb CONST w),
        (strictEqualsString (getProp (account i) "loadingForm") (FORMS_LOGIN_FORM CONST));
      simpl; try solve [intuition congruence];
      destruct (isPrimaryLogin i), (Boolean (getProp (account i) "validated"));
      simpl; try solve [intuition congruence];
      destruct (Boolean (getProp (account i) "isSAMLEnabled")), (isUsingMagicCode i);
      simpl; intuition congruence.
Qed.

(** ** Properties of a render of [SignInPage] *)

Lemma strictEqualsOptional_true (v : value) (o : option string) :
  strictEqualsOptional v o = true ↔ v = optionalString o.
Proof.
  destruct o as [s|]; simpl; [apply strictEqualsString_true|].
  destruct v; split; congruence.
Qed.

Lemma list_ascii_of_append (a b : string) :
  String.list_ascii_of_string (String.append a b)
  = (String.list_ascii_of_string a ++ String.list_ascii_of_string b)%list.
Proof. induction a as [|c a IH]; simpl; [done | by rewrite IH]. Qed.

Lemma replaceSpaces_no_space (r s : string) :
  Ascii.Space ∉ String.list_ascii_of_string r →
  Ascii.Space ∉ String.list_ascii_of_string (replaceSpaces r s).
Proof.
  intros Hr. induction s as [|c s IH]; simpl.
  - apply not_elem_of_nil.
  - destruct (Ascii.eqb c Ascii.Space) eqn:Hc.
    + rewrite list_ascii_of_append. rewrite elem_of_app. tauto.
    + simpl. rewrite not_elem_of_cons. split; [|done].
      intros <-. by rewrite Ascii.eqb_refl in Hc.
Qed.

Lemma hardSpace_no_space : Ascii.Space ∉ String.list_ascii_of_string hardSpace.
Proof.
  unfold hardSpace; simpl. rewrite !not_elem_of_cons.
  repeat split; try discriminate. apply not_elem_of_nil.
Qed.

Section PageFacts.

Variable CONST : Consts.
Variable ROUTE : string.
Variable translate : string -> option (gmap string string) -> string.
Variable formatPhoneNumber : string -> string.
Variable Str_removeSMSDomain : string -> string.
Variable Str_isSMSLogin : string -> bool.

Local Abbreviation render :=
  (SignInPage CONST ROUTE translate formatPhoneNumber Str_removeSMSDomain Str_isSMSLogin).
Local Abbreviation options := (pageOptions CONST).

Ltac run_page :=
  unfold SignInPage, pageOptions, mbind, P_bind, mret, P_ret, useWindowDimensions,
    ActiveClientManager.isClientTheLeader, liftEnv, Navigation.navigateWhenReady,
    Log.warn;
  rewrite getRenderOptions_run.

Ltac case_page :=
  repeat match goal with
  | |- context [shouldInitiateSAMLLogin ?r] => destruct (shouldInitiateSAMLLogin r); simpl
  | |- context [page_isClientTheLeader ?pw] =>
      is_var pw; destruct (page_isClientTheLeader pw); simpl
  | |- context [shouldShowLoginForm ?r] => destruct (shouldShowLoginForm r); simpl
  | |- context [shouldShowValidateCodeForm ?r] =>
      destruct (shouldShowValidateCodeForm r); simpl
  | |- context [shouldShowUnlinkLoginForm ?r] =>
      destruct (shouldShowUnlinkLoginForm r); simpl
  | |- context [shouldShowEmailDeliveryFailurePage ?r] =>
      destruct (shouldShowEmailDeliveryFailurePage r); simpl
  | |- context [shouldShowChooseSSOOrMagicCode ?r] =>
      destruct (shouldShowChooseSSOOrMagicCode r); simpl
  | |- context [Boolean (getProp ?a "requiresTwoFactorAuth")] =>
      destruct (Boolean (getProp a "requiresTwoFactorAuth")); simpl
  | |- context [Boolean (getProp ?a "validated")] =>
      destruct (Boolean (getProp a "validated")); simpl
  end.

(** The routes a render requests. *)
Lemma page_navigations_eq (props : Props) (st : HookState) (pw : PageWorld) :
  page_navigations (render props st pw).2
  = (page_navigations pw
     ++ (if shouldInitiateSAMLLogin (options props st pw) then [ROUTE] else []))%list.
Proof.
  run_page. simpl.
  set (r := renderOptions _ _ _). clearbody r.
  case_page; by rewrite ?app_nil_r.
Qed.

(** The warnings a render logs. *)
Lemma page_warnings_eq (props : Props) (st : HookState) (pw : PageWorld) :
  page_warnings (render props st pw).2
  = (page_warnings pw
    ++ (if page_isClientTheLeader pw
           && negb (shouldShowLoginForm (options props st pw))
           && negb (shouldShowValidateCodeForm (options props st pw))
           && negb (shouldShowUnlinkLoginForm (options props st pw)
                    || shouldShowEmailDeliveryFailurePage (options props st pw)
                    || shouldShowChooseSSOOrMagicCode (options props st pw))
           && negb (shouldInitiateSAMLLogin (options props st pw))
        then ["SignInPage in unexpected state!"] else []))%list.
Proof.
  run_page. simpl.
  set (r := renderOptions _ _ _). clearbody r.
  case_page; by rewrite ?app_nil_r.
Qed.

(** The forms a render mounts. *)
Lemma page_children_eq (props : Props) (st : HookState) (pw : PageWorld) :
  children (render props st pw).1
  = (LoginForm (shouldShowLoginForm (options props st pw))
      (strictEqualsBool (getProp (props_account props) "validated") false)
    :: mountIf (shouldShowValidateCodeForm (options props st pw))
         (ValidateCodeForm (state_isUsingRecoveryCode st))
    ++ mountIf (shouldShowUnlinkLoginForm (options props st pw)) UnlinkLoginForm
    ++ mountIf (shouldShowChooseSSOOrMagicCode (options props st pw)) ChooseSSOOrMagicCode
    ++ mountIf (shouldShowEmailDeliveryFailurePage (options props st pw))
         EmailDeliveryFailurePage)%list.
Proof.
  run_page. simpl.
  set (r := renderOptions _ _ _). clearbody r.
  case_page; done.
Qed.

(** X6: a render logs the unexpected-state warning exactly when the client
    is the leader and either a login is present without an account, or a
    validate code is present without a login while the account is empty or
    has bouncing e-mails and no SAML requirement; otherwise it logs nothing. *)
Theorem unexpected_state_warning_iff (props : Props) (st : HookState) (pw : PageWorld) :
  let a := props_account props in
  let hasLogin := Boolean (optionalString (login (props_credentials props))) in
  let hasValidateCode :=
    Boolean (optionalString (validateCode (props_credentials props))) in
  let unexpected :=
    page_isClientTheLeader pw = true
    ∧ ((hasLogin = true ∧ a = ∅)
       ∨ (hasLogin = false
          ∧ hasValidateCode = true
          ∧ (a = ∅
             ∨ (Boolean (getProp a "hasEmailDeliveryFailure") = true
                ∧ Boolean (getProp a "isSAMLRequired") = false)))) in
  (unexpected →
   page_warnings (render props st pw).2
   = (page_warnings pw ++ ["SignInPage in unexpected state!"])%list)
  ∧ (¬ unexpected → page_warnings (render props st pw).2 = page_warnings pw).
Proof.
  intros a hasLogin hasValidateCode unexpected. rewrite page_warnings_eq.
  destruct (page_isClientTheLeader pw) eqn:Hleader; simpl.
  - pose proof (nothing_selected_iff CONST (page_env pw) (renderInput props st true) eq_refl)
      as Hiff.
    unfold pageOptions. rewrite Hleader.
    set (r := renderOptions _ _ _) in *.
    assert (isPrimaryLogin (renderInput props st true) = true
            ∨ props_account props ≠ ∅) as Hprimary.
    { destruct (decide (props_account props = ∅)) as [Hemp|]; [left | by right].
      simpl. by rewrite Hemp, getProp_empty. }
    simpl in Hiff. fold a hasLogin hasValidateCode in Hiff.
    assert (unexpected ↔
            page_isClientTheLeader pw
            && negb (shouldShowLoginForm r) && negb (shouldShowValidateCodeForm r)
            && negb (shouldShowUnlinkLoginForm r
                     || shouldShowEmailDeliveryFailurePage r
                     || shouldShowChooseSSOOrMagicCode r)
            && negb (shouldInitiateSAMLLogin r) = true) as ->.
    { rewrite Hleader; simpl.
      rewrite !andb_true_iff, !negb_true_iff, !orb_false_iff.
      unfold unexpected. fold a in Hprimary. intuition congruence. }
    rewrite Hleader; simpl. destruct (_ && _); [done|].
    rewrite app_nil_r. split; [discriminate | done].
  - rewrite app_nil_r. unfold unexpected. intuition congruence.
Qed.

(** X7: a render requests the SAML sign-in route exactly when SAML is
    permitted on the platform, a login is present, the account requires SAML
    and the form being loaded is the login form, whether or not the client is
    the leader; otherwise it requests no navigation. *)
Theorem saml_navigation_iff (props : Props) (st : HookState) (pw : PageWorld) :
  let a := props_account props in
  let redirect :=
    samlPermitted CONST (page_env pw)
    ∧ Boolean (optionalString (login (props_credentials props))) = true
    ∧ Boolean (getProp a "isSAMLRequired") = true
    ∧ getProp a "loadingForm" = VString (FORMS_LOGIN_FORM CONST) in
  (redirect →
   page_navigations (render props st pw).2 = (page_navigations pw ++ [ROUTE])%list)
  ∧ (¬ redirect → page_navigations (render props st pw).2 = page_navigations pw).
Proof.
  intros a redirect. rewrite page_navigations_eq.
  assert (shouldInitiateSAMLLogin (options props st pw) = true ↔ redirect) as Hiff.
  { unfold pageOptions, redirect. rewrite shouldInitiateSAMLLogin_eq; simpl.
    rewrite !andb_true_iff, negb_true_iff, samlPermittedb_true, strictEqualsString_true.
    rewrite isEmpty_decide, bool_decide_eq_false. fold a.
    pose proof (Boolean_getProp_nonempty a "isSAMLRequired"). tauto. }
  destruct (shouldInitiateSAMLLogin (options props st pw)).
  - split; [done|]. intros Hno. destruct Hno. by apply Hiff.
  - rewrite app_nil_r. split; [|done]. intros Hyes. apply Hiff in Hyes. discriminate.
Qed.

(** X8: the unlink form is mounted exactly when a login is present, the
    account names a primary login different from it, the account is not
    validated and its e-mails do not bounce. *)
Theorem unlink_form_mounted_iff (props : Props) (st : HookState) (pw : PageWorld) :
  let a := props_account props in
  let credentials := props_credentials props in
  UnlinkLoginForm ∈ children (render props st pw).1
  ↔ Boolean (optionalString (login credentials)) = true
    ∧ Boolean (getProp a "primaryLogin") = true
    ∧ getProp a "primaryLogin" ≠ optionalString (login credentials)
    ∧ Boolean (getProp a "validated") = false
    ∧ Boolean (getProp a "hasEmailDeliveryFailure") = false.
Proof.
  intros a credentials. rewrite page_children_eq.
  assert (∀ b, UnlinkLoginForm
               ∈ (mountIf b UnlinkLoginForm
                  ++ mountIf (shouldShowChooseSSOOrMagicCode (options props st pw))
                       ChooseSSOOrMagicCode
                  ++ mountIf (shouldShowEmailDeliveryFailurePage (options props st pw))
                       EmailDeliveryFailurePage)%list ↔ b = true) as Hin.
  { intros b. rewrite !elem_of_app.
    destruct b, (shouldShowChooseSSOOrMagicCode _),
      (shouldShowEmailDeliveryFailurePage _); simpl;
      rewrite ?elem_of_cons, ?elem_of_nil; intuition congruence. }
  rewrite elem_of_cons, elem_of_app, Hin.
  unfold pageOptions. rewrite shouldShowUnlinkLoginForm_eq; simpl. fold a credentials.
  rewrite !andb_true_iff, !negb_true_iff, orb_false_iff, negb_false_iff.
  rewrite <- (strictEqualsOptional_true (getProp a "primaryLogin") (login credentials)).
  destruct (shouldShowValidateCodeForm _); simpl; rewrite ?elem_of_cons, ?elem_of_nil;
    destruct (strictEqualsOptional _ _); intuition congruence.
Qed.

(** X9: the login form is mounted by every render, first and once, with its
    visibility set to [shouldShowLoginForm]. *)
Theorem login_form_always_mounted (props : Props) (st : HookState) (pw : PageWorld) :
  ∃ rest,
    children (render props st pw).1
    = LoginForm (shouldShowLoginForm (options props st pw))
        (strictEqualsBool (getProp (props_account props) "validated") false)
      :: rest
    ∧ ∀ visible blur, LoginForm visible blur ∉ rest.
Proof.
  rewrite page_children_eq. eexists; split; [reflexivity|].
  intros visible blur. rewrite !elem_of_app.
  destruct (shouldShowValidateCodeForm _), (shouldShowUnlinkLoginForm _),
    (shouldShowChooseSSOOrMagicCode _), (shouldShowEmailDeliveryFailurePage _); simpl;
    rewrite ?elem_of_cons, ?elem_of_nil; intuition congruence.
Qed.

(** X10: a render mounts at most three forms, and three only when they are
    the login form, the unlink form and the SSO chooser. *)
Theorem mounted_forms_bound (props : Props) (st : HookState) (pw : PageWorld) :
  length (children (render props st pw).1) ≤ 3
  ∧ (length (children (render props st pw).1) = 3 →
     children (render props st pw).1
     = [ LoginForm (shouldShowLoginForm (options props st pw))
           (strictEqualsBool (getProp (props_account props) "validated") false);
         UnlinkLoginForm;
         ChooseSSOOrMagicCode ]).
Proof.
  rewrite page_children_eq. unfold pageOptions.
  set (i := renderInput props st (page_isClientTheLeader pw)).
  pose proof (validate_code_form_alone CONST (page_env pw) i) as Hcode.
  pose proof (sso_chooser_excludes CONST (page_env pw) i) as Hsso.
  pose proof (unlink_excludes_delivery_failure CONST (page_env pw) i) as Hnot.
  destruct (shouldShowValidateCodeForm _), (shouldShowUnlinkLoginForm _),
    (shouldShowChooseSSOOrMagicCode _), (shouldShowEmailDeliveryFailurePage _); simpl;
    first [ split; [lia | intros; first [done | lia]]
          | exfalso; intuition congruence ].
Qed.

(** X11: on a client that is not the leader, the welcome copy is the notice
    that another login page is open, the welcome text is shown, the login
    form is mounted hidden, and no warning is logged. *)
Theorem follower_sees_notice (props : Props) (st : HookState) (pw : PageWorld) :
  page_isClientTheLeader pw = false →
  welcomeHeader (render props st pw).1
  = translate "welcomeText.anotherLoginPageIsOpen" None
  ∧ welcomeText (render props st pw).1
    = translate "welcomeText.anotherLoginPageIsOpenExplanation" None
  ∧ layout_shouldShowWelcomeText (render props st pw).1 = true
  ∧ head (children (render props st pw).1)
    = Some (LoginForm false
              (strictEqualsBool (getProp (props_account props) "validated") false))
  ∧ page_warnings (render props st pw).2 = page_warnings pw.
Proof.
  intros Hleader.
  rewrite page_warnings_eq, page_children_eq, Hleader; simpl.
  assert (shouldShowLoginForm (options props st pw) = false) as ->.
  { unfold pageOptions. rewrite shouldShowLoginForm_eq; simpl.
    rewrite Hleader. by destruct (_ && _). }
  rewrite app_nil_r. repeat split.
  - run_page. rewrite Hleader. simpl. by destruct (shouldInitiateSAMLLogin _).
  - run_page. rewrite Hleader. simpl. by destruct (shouldInitiateSAMLLogin _).
  - run_page. rewrite Hleader. simpl.
    set (r := renderOptions _ _ _).
    assert (shouldShowWelcomeText r = true) as Htext.
    { unfold r. rewrite shouldShowWelcomeText_eq. simpl. apply orb_true_r. }
    by destruct (shouldInitiateSAMLLogin r).
Qed.

(** X12: a login that [Str.isSMSLogin] recognises is displayed without any
    ordinary space. *)
Theorem sms_login_displayed_without_spaces (credentials : Credentials) :
  Str_isSMSLogin (Str_removeSMSDomain (orEmptyString (login credentials))) = true →
  Ascii.Space
  ∉ String.list_ascii_of_string
      (userLoginToDisplay formatPhoneNumber Str_removeSMSDomain Str_isSMSLogin credentials).
Proof.
  intros Hsms. unfold userLoginToDisplay. rewrite Hsms.
  apply replaceSpaces_no_space, hardSpace_no_space.
Qed.

(** X13: on the leader client, when neither the login form nor the
    validate-code form is shown, the welcome text is empty. *)
Theorem welcome_text_empty_without_main_form
    (props : Props) (st : HookState) (pw : PageWorld) :
  page_isClientTheLeader pw = true →
  shouldShowLoginForm (options props st pw) = false →
  shouldShowValidateCodeForm (options props st pw) = false →
  welcomeText (render props st pw).1 = "".
Proof.
  unfold pageOptions. intros Hleader. rewrite Hleader. intros Hlogin Hcode.
  run_page. rewrite Hleader. simpl. rewrite Hlogin, Hcode.
  set (r := renderOptions _ _ _). clearbody r.
  destruct (shouldInitiateSAMLLogin r), (shouldShowUnlinkLoginForm r),
    (shouldShowEmailDeliveryFailurePage r), (shouldShowChooseSSOOrMagicCode r); done.
Qed.

(** X14: a render leaves the environment, the leadership and the screen size
    as it found them, keeps what was logged and requested before, and adds at
    most one entry in all: a warning or a navigation, never both. *)
Theorem render_effects_bounded (props : Props) (st : HookState) (pw : PageWorld) :
  page_env (render props st pw).2 = page_env pw
  ∧ page_isClientTheLeader (render props st pw).2 = page_isClientTheLeader pw
  ∧ page_isSmallScreenWidth (render props st pw).2 = page_isSmallScreenWidth pw
  ∧ ∃ warnings navigations,
      page_warnings (render props st pw).2 = (page_warnings pw ++ warnings)%list
      ∧ page_navigations (render props st pw).2
        = (page_navigations pw ++ navigations)%list
      ∧ length warnings + length navigations ≤ 1.
Proof.
  rewrite page_warnings_eq, page_navigations_eq.
  assert (page_env (render props st pw).2 = page_env pw
          ∧ page_isClientTheLeader (render props st pw).2 = page_isClientTheLeader pw
          ∧ page_isSmallScreenWidth (render props st pw).2 = page_isSmallScreenWidth pw)
    as (Henv & Hleader & Hsmall).
  { run_page. destruct pw as [env leader small warnings navigations]; simpl.
    set (r := renderOptions _ _ _). clearbody r.
    destruct leader; simpl; case_page; done. }
  split; [done|]. split; [done|]. split; [done|].
  eexists _, _. split; [reflexivity|]. split; [reflexivity|].
  destruct (shouldInitiateSAMLLogin _); simpl; rewrite ?andb_false_r; simpl; [lia|].
  destruct (_ && _); simpl; lia.
Qed.

End PageFacts.


Lemma follower_sees_notice_witness :
  let result :=
    PageSample.page Sample.samlRequiredLoading (PageSample.loginOnly "a@example.com")
      PageSample.followerOnWeb in
  welcomeHeader result.1 = "welcomeText.anotherLoginPageIsOpen"
  ∧ welcomeText result.1 = "welcomeText.anotherLoginPageIsOpenExplanation"
  ∧ layout_shouldShowWelcomeText result.1 = true
  ∧ head (children result.1) = Some (LoginForm false false)
  ∧ page_warnings result.2 = [].
Proof.
  apply (follower_sees_notice Sample.CONST PageSample.ROUTE PageSample.translate
           PageSample.formatPhoneNumber PageSample.removeSMSDomain PageSample.isSMSLogin
           (PageSample.props Sample.samlRequiredLoading
              (PageSample.loginOnly "a@example.com"))
           PageSample.state0 PageSample.followerOnWeb).
  reflexivity.
Defined.

Lemma sms_login_displayed_without_spaces_witness :
  Ascii.Space
  ∉ String.list_ascii_of_string
      (userLoginToDisplay PageSample.formatPhoneNumber PageSample.removeSMSDomain
         PageSample.isSMSLogin (PageSample.loginOnly "555 0100")).
Proof.
  apply (sms_login_displayed_without_spaces PageSample.formatPhoneNumber
           PageSample.removeSMSDomain PageSample.isSMSLogin
           (PageSample.loginOnly "555 0100")).
  vm_compute; reflexivity.
Defined.

Lemma welcome_text_empty_without_main_form_witness :
  welcomeText
    (PageSample.page PageSample.secondary (PageSample.loginOnly "a@example.com")
       PageSample.leaderOnWeb).1 = "".
Proof.
  apply (welcome_text_empty_without_main_form Sample.CONST PageSample.ROUTE
           PageSample.translate PageSample.formatPhoneNumber PageSample.removeSMSDomain
           PageSample.isSMSLogin
           (PageSample.props PageSample.secondary (PageSample.loginOnly "a@example.com"))
           PageSample.state0 PageSample.leaderOnWeb);
    vm_compute; reflexivity.
Defined.

(** The display of an SMS login, byte for byte: every space of the formatted
    number is the two bytes of U+00A0. *)
Example eval_userLoginToDisplay :
  String.list_ascii_of_string
    (userLoginToDisplay PageSample.formatPhoneNumber PageSample.removeSMSDomain
       PageSample.isSMSLogin (PageSample.loginOnly "5 0"))
  = (String.list_ascii_of_string "+1"
     ++ [Ascii.ascii_of_nat 194; Ascii.ascii_of_nat 160]
     ++ String.list_ascii_of_string "555"
     ++ [Ascii.ascii_of_nat 194; Ascii.ascii_of_nat 160]
     ++ String.list_ascii_of_string "5"
     ++ [Ascii.ascii_of_nat 194; Ascii.ascii_of_nat 160]
     ++ String.list_ascii_of_string "0")%list.
Proof. vm_compute. reflexivity. Qed.

(** A login typed before any account was fetched: nothing but the hidden
    login form is mounted and the warning is logged. *)
Example eval_login_without_account :
  PageSample.page ∅ (PageSample.loginOnly "a@example.com") PageSample.leaderOnWeb
  = ({| welcomeHeader := "";
        welcomeText := "";
        layout_shouldShowWelcomeHeader := true;
        layout_shouldShowWelcomeText := false;
        layout_isInModal := false;
        children := [LoginForm false false] |},
     {| page_env := Sample.web;
        page_isClientTheLeader := true;
        page_isSmallScreenWidth := false;
        page_warnings := ["SignInPage in unexpected state!"];
        page_navigations := [] |}).
Proof. vm_compute. reflexivity. Qed.

(** A follower with a SAML-only account being loaded still requests the SAML
    route. *)
Example eval_follower_saml :
  page_navigations
    (PageSample.page Sample.samlRequiredLoading (PageSample.loginOnly "a@example.com")
       PageSample.followerOnWeb).2
  = [PageSample.ROUTE].
Proof. vm_compute. reflexivity. Qed.
